(** * MegaParse, [doctr_parser.py]: reconciliation of text lines and layout regions

    A shallow embedding of [DoctrParser._get_block_cls] and
    [DoctrParser.__to_elements_list], the two methods that turn the OCR
    document and the per-page layout detections into the ordered list of
    typed blocks.

    Conventions of the embedding.
    - Coordinates are exact rationals ([Q]); Python's [/] raises
      [ZeroDivisionError] on a zero divisor, [assert] raises
      [AssertionError], a failed dict lookup raises [KeyError].
    - Python's two-argument [min]/[max] return their first argument unless
      the second is strictly smaller/greater.
    - [uuid.uuid4()] draws the next identifier of a supply [gen : nat -> UUID];
      the state threaded through the code is the number of draws made so far.
    - The per-page dict [result] is an insertion-ordered association list:
      [result.values()] feeds a stable sort, so the order is observable. *)

From Stdlib Require Import List String Ascii ZArith NArith QArith Bool Lia.
From Stdlib Require Import Qminmax Lqa Morphisms Permutation Sorted.
Import ListNotations.

Local Open Scope Q_scope.

(** ** Exceptions and the state/error monad *)

Inductive exn : Type :=
| AssertionError (msg : string)
| ZeroDivisionError
| KeyError (key : Z)
| ValueError (msg : string).

Inductive result (A : Type) : Type :=
| Ok (a : A)
| Raise (e : exn).
Arguments Ok {A} a.
Arguments Raise {A} e.

Definition UUID : Type := N.
Bind Scope N_scope with UUID.

(** A computation reads the number of identifiers drawn so far and either
    raises or returns a value with the new count. *)
Definition M (A : Type) : Type := nat -> result (A * nat).

Definition ret {A} (a : A) : M A := fun s => Ok (a, s).

Definition raise {A} (e : exn) : M A := fun _ => Raise e.

Definition bind {A B} (m : M A) (k : A -> M B) : M B :=
  fun s => match m s with
           | Ok (a, s') => k a s'
           | Raise e => Raise e
           end.

Definition lift {A} (r : result A) : M A :=
  fun s => match r with
           | Ok a => Ok (a, s)
           | Raise e => Raise e
           end.

Declare Scope monad_scope.
Delimit Scope monad_scope with monad.
Notation "x <- m ;; k" := (bind m (fun x => k))
  (at level 61, m at next level, right associativity) : monad_scope.
Notation "' p <- m ;; k" := (bind m (fun x => let 'p := x in k))
  (at level 61, p pattern, m at next level, right associativity) : monad_scope.
Local Open Scope monad_scope.

(** ** Python numeric helpers *)

Definition Qltb (a b : Q) : bool := negb (Qle_bool b a).

(** [max(a, b)]: [a] unless [b > a]. *)
Definition py_max (a b : Q) : Q := if Qltb a b then b else a.

(** [min(a, b)]: [a] unless [b < a]. *)
Definition py_min (a b : Q) : Q := if Qltb b a then b else a.

(** [min(iterable)] and [max(iterable)]: [ValueError] on an empty iterable
    (with the message of CPython 3.11), otherwise a left-to-right scan
    keeping the first extremal element. *)
Definition min_seq (l : list Q) : result Q :=
  match l with
  | [] => Raise (ValueError "min() arg is an empty sequence")
  | a :: l' => Ok (fold_left py_min l' a)
  end.

Definition max_seq (l : list Q) : result Q :=
  match l with
  | [] => Raise (ValueError "max() arg is an empty sequence")
  | a :: l' => Ok (fold_left py_max l' a)
  end.

(** ** Data model *)

(** The classes of [megaparse_sdk.schema.document] that [block_cls_map] and
    the fallback of [_get_block_cls] mention. *)
Inductive BlockCls : Type :=
| CaptionBlock
| TextBlock
| ListElementBlock
| FooterBlock
| HeaderBlock
| ImageBlock
| SubTitleBlock
| TableBlock
| TitleBlock
| UndefinedBlock.

(** [block_cls_map]: a dict from the detector's integer label to a class. *)
Definition block_cls_map (label : Z) : option BlockCls :=
  match label with
  | 0%Z => Some CaptionBlock
  | 1%Z => Some TextBlock
  | 2%Z => Some TextBlock
  | 3%Z => Some ListElementBlock
  | 4%Z => Some FooterBlock
  | 5%Z => Some HeaderBlock
  | 6%Z => Some ImageBlock
  | 7%Z => Some SubTitleBlock
  | 8%Z => Some TableBlock
  | 9%Z => Some TextBlock
  | 10%Z => Some TitleBlock
  | _ => None
  end.

(** [block_cls_map[label]] *)
Definition block_cls_map_getitem (label : Z) : result BlockCls :=
  match block_cls_map label with
  | Some c => Ok c
  | None => Raise (KeyError label)
  end.

(** Modelled from the spec: the class hierarchy of
    [megaparse_sdk.schema.document] is not part of the sources; the spec
    names the image and table variants as the non-text ones and every other
    variant, the undefined one included, as text-bearing.  This is
    [issubclass(block_cls, TextBlock)]. *)
Definition issubclass_TextBlock (c : BlockCls) : bool :=
  match c with
  | ImageBlock | TableBlock => false
  | _ => true
  end.

Record Point2D : Type := mkPoint2D { x : Q; y : Q }.

Record BBOX : Type := mkBBOX { top_left : Point2D; bottom_right : Point2D }.

(** [BBOX.to_numpy()]: the four coordinates, top-left first. *)
Definition to_numpy (b : BBOX) : Q * Q * Q * Q :=
  (x (top_left b), y (top_left b), x (bottom_right b), y (bottom_right b)).

(** The fields of [LayoutDetectionOutput] the parser reads. *)
Record LayoutDetectionOutput : Type := mkLayoutDetectionOutput
  { bbox_id : UUID; det_bbox : BBOX; label : Z }.

(** Modelled from the spec: the block constructors of
    [megaparse_sdk.schema.document] are not part of the sources; a block
    carries its variant, its text (empty for the variants built without a
    [text] argument), a bbox, a metadata mapping and a page range. *)
Record Block : Type := mkBlock
  { block_cls : BlockCls;
    text : string;
    bbox : BBOX;
    metadata : list (string * string);
    page_range : nat * nat }.

(** The output document. *)
Record MPDocument : Type := mkMPDocument
  { doc_metadata : list (string * string);
    content : list Block;
    detection_origin : string }.

(** The OCR document built by onnxtr's [doc_builder]. *)
Module doctr.

Definition Geometry : Type := (Q * Q) * (Q * Q).

Record Word : Type := mkWord { value : string; geometry : Geometry }.

Record Line : Type := mkLine { words : list Word }.

Record Artefact : Type := mkArtefact { artefact_geometry : Geometry }.

Record Block : Type := mkBlock { lines : list Line; artefacts : list Artefact }.

Record Page : Type := mkPage { blocks : list Block }.

Record Document : Type := mkDocument { pages : list Page }.

(** [Line.render()]: the words' values joined by a space. *)
Definition render (l : Line) : string :=
  String.concat " " (map value (words l)).

End doctr.

(** ** The region matcher, [_get_block_cls] *)

(** The body of one iteration of the loop, up to the comparison with the
    threshold: both assertions, the clipped intersection, the division. *)
Definition overlap_exceeds (coordinates : Q * Q * Q * Q)
    (det : LayoutDetectionOutput) (threshold : Q) : result bool :=
  let '(x1, y1, x2, y2) := coordinates in
  let '(X1, Y1, X2, Y2) := to_numpy (det_bbox det) in
  if negb (Qle_bool x1 x2 && Qle_bool y1 y2) then
    Raise (AssertionError "bbox1 coordinates are invalid")
  else if negb (Qle_bool X1 X2 && Qle_bool Y1 Y2) then
    Raise (AssertionError "bbox2 coordinates are invalid")
  else
    let union_x1 := py_max x1 X1 in
    let union_y1 := py_max y1 Y1 in
    let union_x2 := py_min x2 X2 in
    let union_y2 := py_min y2 Y2 in
    let union_width := py_max 0 (union_x2 - union_x1) in
    let union_height := py_max 0 (union_y2 - union_y1) in
    let union_area := union_width * union_height in
    let detection_area := py_max 0 (x2 - x1) * py_max 0 (y2 - y1) in
    if Qeq_bool detection_area 0 then Raise ZeroDivisionError
    else Ok (Qltb threshold (union_area / detection_area)).

(** The default of the [threshold] argument. *)
Definition default_threshold : Q := 6 # 10.

(** ** The per-page dict [result] *)

Definition dict : Type := list (UUID * Block).

(** [result.get(k)] *)
Fixpoint dict_get (k : UUID) (d : dict) : option Block :=
  match d with
  | [] => None
  | (k', b) :: d' => if N.eqb k k' then Some b else dict_get k d'
  end.

(** [result[k] = b]: an existing key keeps its position, a new key goes
    last. *)
Fixpoint dict_set (k : UUID) (b : Block) (d : dict) : dict :=
  match d with
  | [] => [(k, b)]
  | (k', b') :: d' =>
      if N.eqb k k' then (k', b) :: d' else (k', b') :: dict_set k b d'
  end.

(** [result.values()], in insertion order. *)
Definition dict_values (d : dict) : list Block := map snd d.

Definition dict_keys (d : dict) : list UUID := map fst d.

(** ** Python's [sorted(..., key=...)] *)

(** [sorted] is a stable sort that compares keys with [<].  For keys in a
    total order the result of a stable sort is unique; it is computed here by
    straight insertion, each element going in front of the first element of
    the already sorted tail whose key is not smaller. *)
Fixpoint insert_by_key {A} (key : A -> Q) (a : A) (l : list A) : list A :=
  match l with
  | [] => [a]
  | b :: l' =>
      if Qltb (key b) (key a) then b :: insert_by_key key a l'
      else a :: b :: l'
  end.

Definition sorted {A} (key : A -> Q) (l : list A) : list A :=
  fold_right (insert_by_key key) [] l.

(** Ascending order of the keys. *)
Definition key_le {A} (key : A -> Q) (a b : A) : Prop := key a <= key b.

(** [lambda block: block.bbox.top_left.y] *)
Definition top_edge (b : Block) : Q := y (top_left (bbox b)).

(** ** The block accumulator: lines 341-358 of [__to_elements_list] *)

(** The one-character string ["\n"]. *)
Definition newline : string := String "010"%char EmptyString.

(** What one line does to [result] once its box [(x0, y0, x1, y1)] and its
    match [(block_id, block_cls)] are known: merged into the block stored
    under [block_id] when there is one; a new block of class [block_cls]
    when that class is a text class; nothing otherwise (the [if]/[elif] has
    no [else]). *)
Definition accumulate (block_id : UUID) (cls : BlockCls) (line_text : string)
    (coordinates : Q * Q * Q * Q) (page_number : nat) (result : dict) : dict :=
  let '(x0, y0, x1, y1) := coordinates in
  match dict_get block_id result with
  | Some b =>
      let '(bbx0, bby0, bbx1, bby1) := to_numpy (bbox b) in
      dict_set block_id
        (mkBlock (block_cls b)
           (text b ++ newline ++ line_text)%string
           (mkBBOX (mkPoint2D (py_min x0 bbx0) (py_min y0 bby0))
                   (mkPoint2D (py_max x1 bbx1) (py_max y1 bby1)))
           (metadata b) (page_range b))
        result
  | None =>
      if issubclass_TextBlock cls then
        dict_set block_id
          (mkBlock cls line_text
             (mkBBOX (mkPoint2D x0 y0) (mkPoint2D x1 y1))
             [] (page_number, page_number))
          result
      else result
  end.

(** Lines 332-336: the union box of the words of a line. *)
Definition line_box (line : doctr.Line) : result (Q * Q * Q * Q) :=
  let line_coordinates := map doctr.geometry (doctr.words line) in
  match min_seq (map (fun word => fst (fst word)) line_coordinates) with
  | Raise e => Raise e
  | Ok x0 =>
  match min_seq (map (fun word => snd (fst word)) line_coordinates) with
  | Raise e => Raise e
  | Ok y0 =>
  match max_seq (map (fun word => fst (snd word)) line_coordinates) with
  | Raise e => Raise e
  | Ok x1 =>
  match max_seq (map (fun word => snd (snd word)) line_coordinates) with
  | Raise e => Raise e
  | Ok y1 => Ok (x0, y0, x1, y1)
  end end end end.

(** A [for] loop that threads a value through its body. *)
Fixpoint for_each {A S} (body : A -> S -> M S) (l : list A) (s : S) : M S :=
  match l with
  | [] => ret s
  | a :: l' => s' <- body a s ;; for_each body l' s'
  end.

(** [det.label in [6, 8]] *)
Definition is_image_or_table (det : LayoutDetectionOutput) : bool :=
  existsb (Z.eqb (label det)) [6%Z; 8%Z].

Section Parser.

(** The identifiers [uuid.uuid4()] returns, in the order of the calls. *)
Variable gen : nat -> UUID.

Definition uuid4 : M UUID := fun s => Ok (gen s, S s).

Fixpoint _get_block_cls (coordinates : Q * Q * Q * Q)
    (layout : list LayoutDetectionOutput) (threshold : Q)
    : M (UUID * BlockCls) :=
  match layout with
  | [] => u <- uuid4 ;; ret (u, UndefinedBlock)
  | det :: layout' =>
      hit <- lift (overlap_exceeds coordinates det threshold) ;;
      if (hit : bool) then
        cls <- lift (block_cls_map_getitem (label det)) ;;
        ret (bbox_id det, cls)
      else _get_block_cls coordinates layout' threshold
  end.

(** The body of [for line in block.lines]. *)
Definition process_line (page_number : nat)
    (layout : list LayoutDetectionOutput) (line : doctr.Line)
    (result : dict) : M dict :=
  coordinates <- lift (line_box line) ;;
  ' (block_id, cls) <- _get_block_cls coordinates layout default_threshold ;;
  ret (accumulate block_id cls (doctr.render line) coordinates page_number
         result).

(** The body of [for det in layout] at lines 360-371. *)
Definition inject_region (page_number : nat) (det : LayoutDetectionOutput)
    (result : dict) : M dict :=
  if is_image_or_table det then
    let '(x0, y0, x1, y1) := to_numpy (det_bbox det) in
    cls <- lift (block_cls_map_getitem (label det)) ;;
    u <- uuid4 ;;
    ret (dict_set u
           (mkBlock cls ""
              (mkBBOX (mkPoint2D x0 y0) (mkPoint2D x1 y1))
              [] (page_number, page_number))
           result)
  else ret result.

(** The body of [for block in page.blocks]: the lines/artefacts check, the
    loop over the lines, then the loop over the layout, which sits inside
    the loop over the blocks. *)
Definition process_block (page_number : nat)
    (layout : list LayoutDetectionOutput) (block : doctr.Block)
    (result : dict) : M dict :=
  if negb (Nat.eqb (List.length (doctr.lines block)) 0)
     && Nat.ltb 0 (List.length (doctr.artefacts block)) then
    raise (ValueError "Block should not contain both lines and artefacts")
  else
    result1 <- for_each (process_line page_number layout)
                 (doctr.lines block) result ;;
    for_each (inject_region page_number) layout result1.

(** One page: [result = {}], the loop over its blocks. *)
Definition page_result (page_number : nat) (page : doctr.Page)
    (layout : list LayoutDetectionOutput) : M dict :=
  for_each (process_block page_number layout) (doctr.blocks page) [].

(** [for page_number, (page, layout) in enumerate(zip(pages, layouts,
    strict=True))], accumulating [results]. *)
Fixpoint pages_loop (page_number : nat) (pages : list doctr.Page)
    (layouts : list (list LayoutDetectionOutput)) (results : list Block)
    : M (list Block) :=
  match pages, layouts with
  | [], [] => ret results
  | page :: pages', layout :: layouts' =>
      result <- page_result page_number page layout ;;
      let sorted_page_blocks := sorted top_edge (dict_values result) in
      pages_loop (S page_number) pages' layouts'
        (results ++ sorted_page_blocks)
  | _ :: _, [] => raise (ValueError "zip() argument 2 is shorter than argument 1")
  | [], _ :: _ => raise (ValueError "zip() argument 2 is longer than argument 1")
  end.

Definition to_elements_list (doctr_document : doctr.Document)
    (layouts : list (list LayoutDetectionOutput)) : M MPDocument :=
  results <- pages_loop 0 (doctr.pages doctr_document) layouts [] ;;
  ret (mkMPDocument [] results "doctr").

End Parser.

(** ** Geometry, as the specification words it *)








(** The box of a block built from coordinates, [BBOX(top_left=Point2D(..),
    bottom_right=Point2D(..))]. *)
Definition box_of (c : Q * Q * Q * Q) : BBOX :=
  let '(x0, y0, x1, y1) := c in mkBBOX (mkPoint2D x0 y0) (mkPoint2D x1 y1).

(** The spec's union of two boxes: component-wise minimum of the top-left
    corners and maximum of the bottom-right corners. *)
Definition union_box (c c' : Q * Q * Q * Q) : Q * Q * Q * Q :=
  let '(x0, y0, x1, y1) := c in
  let '(x0', y0', x1', y1') := c' in
  (Qmin x0 x0', Qmin y0 y0', Qmax x1 x1', Qmax y1 y1').

(** Two boxes with equal coordinates (as rationals). *)
Definition bbox_equiv (a b : BBOX) : Prop :=
  x (top_left a) == x (top_left b)
  /\ y (top_left a) == y (top_left b)
  /\ x (bottom_right a) == x (bottom_right b)
  /\ y (bottom_right a) == y (bottom_right b).

(** ** Sample inputs *)

Definition sample_gen (n : nat) : UUID := (1000 + N.of_nat n)%N.

Definition region (id : UUID) (x0 y0 x1 y1 : Q) (lbl : Z)
    : LayoutDetectionOutput :=
  mkLayoutDetectionOutput id
    (mkBBOX (mkPoint2D x0 y0) (mkPoint2D x1 y1)) lbl.

Definition word (s : string) (x0 y0 x1 y1 : Q) : doctr.Word :=
  doctr.mkWord s ((x0, y0), (x1, y1)).

(** A text region covering nine tenths of the box [(0,0)-(10,10)], listed
    before a title region that contains that box. *)
Definition sample_layout : list LayoutDetectionOutput :=
  [region 7 0 0 9 10 1; region 8 0 0 10 10 10].

(** A page with one recognized block holding the given lines. *)
Definition one_block_page (ls : list doctr.Line) : doctr.Page :=
  doctr.mkPage [doctr.mkBlock ls []].

(** The spec's round-trip scenario: two lines inside a title region. *)
Definition hello_world_page : doctr.Page :=
  one_block_page [doctr.mkLine [word "Hello" 5 2 95 10];
                  doctr.mkLine [word "World" 5 11 95 19]].

(** A line of text that lies inside an image region. *)
Definition line_in_image : doctr.Line := doctr.mkLine [word "x" 1 1 2 2].

Definition image_region : LayoutDetectionOutput := region 7 0 0 10 10 6.


(** The page maps of the assembly, page by page, before they are sorted:
    the loop of [pages_loop] with the maps kept instead of appended to
    [results].  Used to state what [results] is made of. *)
Fixpoint page_maps (gen : nat -> UUID) (page_number : nat)
    (pages : list doctr.Page) (layouts : list (list LayoutDetectionOutput))
    : M (list dict) :=
  match pages, layouts with
  | [], [] => ret []
  | page :: pages', layout :: layouts' =>
      result <- page_result gen page_number page layout ;;
      rest <- page_maps gen (S page_number) pages' layouts' ;;
      ret (result :: rest)
  | _ :: _, [] => raise (ValueError "zip() argument 2 is shorter than argument 1")
  | [], _ :: _ => raise (ValueError "zip() argument 2 is longer than argument 1")
  end.



(** ** Well-formed inputs *)


(** The word box lies inside [(x0, y0)-(x1, y1)]. *)
Definition encloses (c : Q * Q * Q * Q) (w : doctr.Word) : Prop :=
  let '(x0, y0, x1, y1) := c in
  let '((wx0, wy0), (wx1, wy1)) := doctr.geometry w in
  x0 <= wx0 /\ y0 <= wy0 /\ wx1 <= x1 /\ wy1 <= y1.



(** A block made on page [pn]: it spans that page alone and has no
    metadata. *)
Definition on_page (pn : nat) (b : Block) : Prop :=
  page_range b = (pn, pn) /\ metadata b = [].

(** The class of an injected region: the class of its label 6 or 8. *)
Definition injected_cls (det : LayoutDetectionOutput) : BlockCls :=
  if Z.eqb (label det) 6 then ImageBlock else TableBlock.

(** ** Provider selection, [_get_providers] *)

(** The values of [self.device] that the method tells apart: the three
    members of [DeviceEnum] it names, and [OtherDevice] for any other
    value, which takes the [else] branch. *)
Inductive DeviceEnum : Type := CPU | CUDA | COREML | OtherDevice.

(** [name not in prov] *)
Definition not_in (name : string) (prov : list string) : bool :=
  negb (existsb (String.eqb name) prov).

(** [_get_providers], with the list [rt.get_available_providers()] returns
    as an argument; the result is the list of providers together with the
    warnings issued on the way. *)
Definition _get_providers (device : DeviceEnum) (prov : list string)
    : result (list string * list string) :=
  match device with
  | CUDA =>
      if not_in "CUDAExecutionProvider" prov then
        Raise (ValueError
                 "onnxruntime can't find CUDAExecutionProvider in list of available providers")
      else Ok (["TensorrtExecutionProvider"; "CUDAExecutionProvider"]%string, [])
  | COREML =>
      if not_in "CoreMLExecutionProvider" prov then
        Raise (ValueError
                 "onnxruntime can't find CoreMLExecutionProvider in list of available providers")
      else Ok (["CoreMLExecutionProvider"]%string, [])
  | CPU => Ok (["CPUExecutionProvider"]%string, [])
  | OtherDevice =>
      Ok (["CPUExecutionProvider"]%string,
          ["Device not supported, using CPU"]%string)
  end.

(** ** The inputs of the recognition, [get_text_recognition] lines 217-234 *)

(** What the first part of [get_text_recognition] ends with: the five lists
    it has built, the failure of its [assert], or the [AttributeError] of a
    method call on [None]. *)
Inductive collected (A : Type) : Type :=
| Collected (a : A)
| AssertionFailed (msg : string)
| AttributeErrorOnNone (attribute : string).
Arguments Collected {A} a.
Arguments AssertionFailed {A} msg.
Arguments AttributeErrorOnNone {A} attribute.

Section Recognition.

(** The page image, the arrays and the detections are values of the
    libraries; the code only passes them on, turns the image into an array,
    calls the four getters of the detections, reads the number of rows of
    the boxes and replaces an array without rows by [np.zeros((0, 4))]. *)
Variables Image Raster Array Scores Orientation Shape TextDetection : Type.
Variable np_array : Image -> Raster.
Variable get_loc_preds : TextDetection -> Array.
Variable get_objectness_scores : TextDetection -> Scores.
Variable get_orientations : TextDetection -> Orientation.
Variable get_origin_page_shapes : TextDetection -> Shape.
Variable rows : Array -> nat.
Variable zeros_0_4 : Array.

(** The fields of [megaparse.models.page.Page] the method reads. *)
Record Page : Type := mkPage
  { rasterized : Image; text_detections : option TextDetection }.

Definition RecognitionInputs : Type :=
  list Raster * list Array * list Scores * list Orientation * list Shape.

(** The body of [for page in pages], appending to the five lists. *)
Fixpoint collect_pages (pages : list Page) (acc : RecognitionInputs)
    : collected RecognitionInputs :=
  match pages with
  | [] => Collected acc
  | page :: pages' =>
      match text_detections page with
      | None => AttributeErrorOnNone "get_loc_preds"
      | Some td =>
          let page_loc_pred := get_loc_preds td in
          let page_loc_pred :=
            if Nat.eqb (rows page_loc_pred) 0 then zeros_0_4
            else page_loc_pred in
          let '(rasterized_pages, loc_preds, objectness_scores,
                orientations, origin_page_shapes) := acc in
          collect_pages pages'
            (rasterized_pages ++ [np_array (rasterized page)],
             loc_preds ++ [page_loc_pred],
             objectness_scores ++ [get_objectness_scores td],
             orientations ++ [get_orientations td],
             origin_page_shapes ++ [get_origin_page_shapes td])
      end
  end.

(** The boxes of a page as the loop appends them to [loc_preds]. *)
Definition loc_pred_of (td : TextDetection) : Array :=
  if Nat.eqb (rows (get_loc_preds td)) 0 then zeros_0_4 else get_loc_preds td.

(** The [assert any(...)] and the loop. *)
Definition recognition_inputs (pages : list Page)
    : collected RecognitionInputs :=
  if existsb (fun page => match text_detections page with
                          | Some _ => true
                          | None => false
                          end) pages
  then collect_pages pages ([], [], [], [], [])
  else AssertionFailed
         "Text detections should be computed before running text recognition".

End Recognition.

Arguments mkPage {Image TextDetection} rasterized text_detections.
Arguments rasterized {Image TextDetection} p.
Arguments text_detections {Image TextDetection} p.

(** * Properties *)

(** ** Comparisons, [min] and [max] *)

Lemma Qltb_true (a b : Q) : Qltb a b = true <-> a < b.
Proof.
  unfold Qltb. rewrite negb_true_iff. split; intro H.
  - apply Qnot_le_lt. intro Hle. apply Qle_bool_iff in Hle. congruence.
  - destruct (Qle_bool b a) eqn:E; [|reflexivity].
    apply Qle_bool_iff in E. exfalso. exact (Qlt_not_le _ _ H E).
Qed.

Lemma Qltb_false (a b : Q) : Qltb a b = false <-> b <= a.
Proof.
  unfold Qltb. rewrite negb_false_iff. apply Qle_bool_iff.
Qed.

Lemma py_min_spec (a b : Q) : py_min a b == Qmin a b.
Proof.
  unfold py_min. destruct (Qltb b a) eqn:E.
  - apply Qltb_true in E. symmetry. apply Q.min_r. now apply Qlt_le_weak.
  - apply Qltb_false in E. symmetry. now apply Q.min_l.
Qed.

Lemma py_max_spec (a b : Q) : py_max a b == Qmax a b.
Proof.
  unfold py_max. destruct (Qltb a b) eqn:E.
  - apply Qltb_true in E. symmetry. apply Q.max_r. now apply Qlt_le_weak.
  - apply Qltb_false in E. symmetry. now apply Q.max_l.
Qed.

Lemma py_min_comm (a b : Q) : py_min a b == py_min b a.
Proof. rewrite !py_min_spec. apply Q.min_comm. Qed.

Lemma py_max_comm (a b : Q) : py_max a b == py_max b a.
Proof. rewrite !py_max_spec. apply Q.max_comm. Qed.


Lemma py_max_0_ge (a : Q) : 0 <= py_max 0 a.
Proof.
  unfold py_max. destruct (Qltb 0 a) eqn:E.
  - apply Qltb_true in E. now apply Qlt_le_weak.
  - apply Qle_refl.
Qed.







Lemma get_block_cls_miss gen c det layout threshold s :
  overlap_exceeds c det threshold = Ok false ->
  _get_block_cls gen c (det :: layout) threshold s
  = _get_block_cls gen c layout threshold s.
Proof.
  intros Hmiss. simpl. unfold bind, lift. now rewrite Hmiss.
Qed.


(** ** The region matcher *)









(** ** The per-page dict *)

Lemma dict_get_set_same k b d : dict_get k (dict_set k b d) = Some b.
Proof.
  induction d as [|[k' b'] d IH]; simpl.
  - now rewrite N.eqb_refl.
  - destruct (N.eqb k k') eqn:E; simpl; rewrite E; auto.
Qed.

Lemma dict_get_set_other k k' b d :
  k' <> k -> dict_get k' (dict_set k b d) = dict_get k' d.
Proof.
  intro Hne. induction d as [|[k0 b0] d IH]; simpl.
  - destruct (N.eqb k' k) eqn:E; [apply N.eqb_eq in E; contradiction | auto].
  - destruct (N.eqb k k0) eqn:E; simpl.
    + apply N.eqb_eq in E. subst k0.
      destruct (N.eqb k' k) eqn:E'; [|reflexivity].
      apply N.eqb_eq in E'. contradiction.
    + now rewrite IH.
Qed.

Lemma dict_set_new k b d :
  dict_get k d = None -> dict_set k b d = d ++ [(k, b)].
Proof.
  induction d as [|[k' b'] d IH]; simpl; [reflexivity|].
  destruct (N.eqb k k'); [discriminate|]. intro H. now rewrite IH.
Qed.

Lemma dict_keys_set_present k b b0 d :
  dict_get k d = Some b0 -> dict_keys (dict_set k b d) = dict_keys d.
Proof.
  induction d as [|[k' b'] d IH]; simpl; [discriminate|].
  destruct (N.eqb k k') eqn:E; simpl; [reflexivity|].
  intro H. unfold dict_keys in *. simpl. f_equal. auto.
Qed.

(** ** The block accumulator *)

Lemma accumulate_new id cls t c pn result :
  dict_get id result = None ->
  issubclass_TextBlock cls = true ->
  accumulate id cls t c pn result
  = result ++ [(id, mkBlock cls t (box_of c) [] (pn, pn))].
Proof.
  intros Hget Hcls. destruct c as [[[x0 y0] x1] y1].
  unfold accumulate. rewrite Hget, Hcls. now apply dict_set_new.
Qed.

Lemma accumulate_dropped id cls t c pn result :
  dict_get id result = None ->
  issubclass_TextBlock cls = false ->
  accumulate id cls t c pn result = result.
Proof.
  intros Hget Hcls. destruct c as [[[x0 y0] x1] y1].
  unfold accumulate. now rewrite Hget, Hcls.
Qed.

Lemma accumulate_present id cls t c pn result b :
  dict_get id result = Some b ->
  exists b',
    accumulate id cls t c pn result = dict_set id b' result
    /\ block_cls b' = block_cls b
    /\ text b' = (text b ++ newline ++ t)%string
    /\ bbox_equiv (bbox b') (box_of (union_box (to_numpy (bbox b)) c))
    /\ metadata b' = metadata b
    /\ page_range b' = page_range b.
Proof.
  intros Hget. destruct c as [[[x0 y0] x1] y1].
  unfold accumulate. rewrite Hget.
  destruct b as [bc bt [[bx0 by0] [bx1 by1]] bm bp]. simpl.
  eexists. split; [reflexivity|]. simpl.
  split; [reflexivity | split; [reflexivity |]].
  split; [| split; reflexivity].
  unfold bbox_equiv. simpl. rewrite !py_min_spec, !py_max_spec.
  split; [apply Q.min_comm | split; [apply Q.min_comm |]].
  split; apply Q.max_comm.
Qed.

Lemma union_box_comm c c' :
  bbox_equiv (box_of (union_box c c')) (box_of (union_box c' c)).
Proof.
  destruct c as [[[x0 y0] x1] y1]. destruct c' as [[[x0' y0'] x1'] y1'].
  unfold bbox_equiv. simpl.
  split; [apply Q.min_comm | split; [apply Q.min_comm |]].
  split; apply Q.max_comm.
Qed.

Lemma bbox_equiv_trans a b c :
  bbox_equiv a b -> bbox_equiv b c -> bbox_equiv a c.
Proof.
  intros (H1 & H2 & H3 & H4) (H5 & H6 & H7 & H8). unfold bbox_equiv.
  rewrite H1, H2, H3, H4. auto.
Qed.

Lemma bbox_equiv_sym a b : bbox_equiv a b -> bbox_equiv b a.
Proof.
  intros (H1 & H2 & H3 & H4). unfold bbox_equiv.
  rewrite H1, H2, H3, H4. repeat split; reflexivity.
Qed.

(** Two lines accumulated one after the other under an identifier that is
    new to the map, the first with a text class. *)
Lemma accumulate_twice id cls cls' t t' c c' pn result :
  dict_get id result = None ->
  issubclass_TextBlock cls = true ->
  exists b,
    dict_get id (accumulate id cls' t' c' pn (accumulate id cls t c pn result))
    = Some b
    /\ block_cls b = cls
    /\ text b = (t ++ newline ++ t')%string
    /\ bbox_equiv (bbox b) (box_of (union_box c c')).
Proof.
  intros Hget Hcls.
  rewrite (accumulate_new id cls t c pn result Hget Hcls).
  rewrite <- (dict_set_new id _ result Hget).
  destruct (accumulate_present id cls' t' c' pn
              (dict_set id (mkBlock cls t (box_of c) [] (pn, pn)) result) _
              (dict_get_set_same _ _ _))
    as (b & -> & Hc & Ht & Hb & _).
  exists b. rewrite dict_get_set_same.
  split; [reflexivity | split; [exact Hc | split; [exact Ht |]]].
  destruct c as [[[x0 y0] x1] y1]. exact Hb.
Qed.

(** Claim C4.  Two lines accumulated under one identifier, new to the page
    map and matched to text classes: the block's text is the first line's
    text, a newline, the second line's text, and its bbox is the
    component-wise union of the two line boxes; in the opposite order the
    text is concatenated the other way round and the bbox is the same. *)
Theorem accumulate_two_lines id cls1 cls2 t1 t2 c1 c2 pn result :
  dict_get id result = None ->
  issubclass_TextBlock cls1 = true ->
  issubclass_TextBlock cls2 = true ->
  exists b12 b21,
    dict_get id
      (accumulate id cls2 t2 c2 pn (accumulate id cls1 t1 c1 pn result))
    = Some b12
    /\ dict_get id
         (accumulate id cls1 t1 c1 pn (accumulate id cls2 t2 c2 pn result))
       = Some b21
    /\ text b12 = (t1 ++ newline ++ t2)%string
    /\ text b21 = (t2 ++ newline ++ t1)%string
    /\ bbox_equiv (bbox b12) (box_of (union_box c1 c2))
    /\ bbox_equiv (bbox b12) (bbox b21).
Proof.
  intros Hget H1 H2.
  destruct (accumulate_twice id cls1 cls2 t1 t2 c1 c2 pn result Hget H1)
    as (b12 & G12 & _ & T12 & B12).
  destruct (accumulate_twice id cls2 cls1 t2 t1 c2 c1 pn result Hget H2)
    as (b21 & G21 & _ & T21 & B21).
  exists b12, b21.
  split; [exact G12 | split; [exact G21 |]].
  split; [exact T12 | split; [exact T21 | split; [exact B12 |]]].
  apply (bbox_equiv_trans _ _ _ B12).
  apply (bbox_equiv_trans _ _ _ (union_box_comm c1 c2)).
  now apply bbox_equiv_sym.
Qed.

Lemma accumulate_two_lines_witness :
  dict_get 7 [] = None
  /\ issubclass_TextBlock TitleBlock = true
  /\ exists b12 b21,
       dict_get 7
         (accumulate 7 TitleBlock "World" (5, 11, 95, 19) 0
            (accumulate 7 TitleBlock "Hello" (5, 2, 95, 10) 0 []))
       = Some b12
       /\ dict_get 7
            (accumulate 7 TitleBlock "Hello" (5, 2, 95, 10) 0
               (accumulate 7 TitleBlock "World" (5, 11, 95, 19) 0 []))
          = Some b21
       /\ text b12 = ("Hello" ++ newline ++ "World")%string
       /\ text b21 = ("World" ++ newline ++ "Hello")%string
       /\ bbox_equiv (bbox b12)
            (box_of (union_box (5, 2, 95, 10) (5, 11, 95, 19)))
       /\ bbox_equiv (bbox b12) (bbox b21).
Proof.
  split; [reflexivity | split; [reflexivity |]].
  exact (accumulate_two_lines 7 TitleBlock TitleBlock "Hello" "World"
           (5, 2, 95, 10) (5, 11, 95, 19) 0 [] eq_refl eq_refl eq_refl).
Defined.

(** The spec's round-trip scenario, run through the whole assembly. *)
Example hello_world_document :
  to_elements_list sample_gen (doctr.mkDocument [hello_world_page])
    [[region 7 0 0 100 20 10]] 0%nat
  = Ok (mkMPDocument []
          [mkBlock TitleBlock ("Hello" ++ newline ++ "World")
             (mkBBOX (mkPoint2D 5 2) (mkPoint2D 95 19)) [] (0, 0)%nat]
          "doctr", 0%nat).
Proof. reflexivity. Qed.

(** Claim C1, as amended.  A line whose word boxes give a box and whose
    match is [(block_id, cls)] is processed without error and changes the
    page map in exactly one of three ways: when [block_id] is in the map,
    the block stored there gets the line's text appended after a newline
    and its bbox enlarged, the other entries and the order being kept;
    when it is not and [cls] is a text class, one new block with the
    line's text and box is added last; when it is not and [cls] is the
    image or table class, the map is left as it was and the line appears
    in no block. *)
Theorem process_line_outcome gen pn layout line result s c id cls s' :
  line_box line = Ok c ->
  _get_block_cls gen c layout default_threshold s = Ok ((id, cls), s') ->
  exists result',
    process_line gen pn layout line result s = Ok (result', s')
    /\ match dict_get id result with
       | Some b =>
           dict_keys result' = dict_keys result
           /\ (forall k, k <> id -> dict_get k result' = dict_get k result)
           /\ exists b',
                dict_get id result' = Some b'
                /\ block_cls b' = block_cls b
                /\ text b' = (text b ++ newline ++ doctr.render line)%string
                /\ bbox_equiv (bbox b')
                     (box_of (union_box (to_numpy (bbox b)) c))
       | None =>
           if issubclass_TextBlock cls then
             result' = result ++ [(id, mkBlock cls (doctr.render line)
                                         (box_of c) [] (pn, pn))]
           else result' = result
       end.
Proof.
  intros Hbox Hmatch. unfold process_line, bind, lift, ret.
  rewrite Hbox, Hmatch. eexists. split; [reflexivity|].
  destruct (dict_get id result) as [b|] eqn:Hget.
  - destruct (accumulate_present id cls (doctr.render line) c pn result b Hget)
      as (b' & -> & Hc & Ht & Hb & _).
    split; [now apply (dict_keys_set_present id b' b)|].
    split; [intros k Hk; now apply dict_get_set_other|].
    exists b'. rewrite dict_get_set_same. auto.
  - destruct (issubclass_TextBlock cls) eqn:Hcls.
    + now apply accumulate_new.
    + now apply accumulate_dropped.
Qed.

Lemma process_line_outcome_witness :
  line_box line_in_image = Ok (1, 1, 2, 2)
  /\ _get_block_cls sample_gen (1, 1, 2, 2) [image_region]
       default_threshold 0%nat = Ok ((7%N, ImageBlock), 0%nat)
  /\ process_line sample_gen 0 [image_region] line_in_image [] 0%nat
     = Ok ([], 0%nat).
Proof.
  assert (H1 : line_box line_in_image = Ok (1, 1, 2, 2)) by reflexivity.
  assert (H2 : _get_block_cls sample_gen (1, 1, 2, 2) [image_region]
                 default_threshold 0%nat = Ok ((7%N, ImageBlock), 0%nat))
    by reflexivity.
  split; [exact H1 | split; [exact H2 |]].
  destruct (process_line_outcome sample_gen 0%nat [image_region]
              line_in_image [] 0%nat _ _ _ _ H1 H2) as (r & Hrun & Hr).
  simpl in Hr. subst r. exact Hrun.
Defined.

(** Claim C1, counterexample.  A page whose only line lies inside an image
    region: the assembly raises nothing and returns a document whose only
    block is the injected image block, with empty text; the line's text
    ["x"] is in no block. *)
Lemma line_in_image_vanishes :
  to_elements_list sample_gen
    (doctr.mkDocument [one_block_page [line_in_image]]) [[image_region]]
    0%nat
  = Ok (mkMPDocument []
          [mkBlock ImageBlock ""
             (mkBBOX (mkPoint2D 0 0) (mkPoint2D 10 10)) [] (0, 0)%nat]
          "doctr", 1%nat)
  /\ doctr.render line_in_image = "x"%string.
Proof. split; reflexivity. Qed.

(** ** Direct injection of image and table regions *)

(** Claim C2, what the code does.  The loop that injects the image and
    table regions is part of the body of the loop over the recognized
    blocks of the page: a page without recognized blocks gets an empty map
    whatever its layout, so an image region on it yields no block, and a
    page with two recognized blocks gets two image blocks for one image
    region. *)
Theorem injection_runs_once_per_recognized_block :
  (forall gen pn layout s,
      page_result gen pn (doctr.mkPage []) layout s = Ok ([], s))
  /\ to_elements_list sample_gen (doctr.mkDocument [doctr.mkPage []])
       [[image_region]] 0%nat
     = Ok (mkMPDocument [] [] "doctr", 0%nat)
  /\ to_elements_list sample_gen
       (doctr.mkDocument
          [doctr.mkPage [doctr.mkBlock [] []; doctr.mkBlock [] []]])
       [[image_region]] 0%nat
     = Ok (mkMPDocument []
             [mkBlock ImageBlock ""
                (mkBBOX (mkPoint2D 0 0) (mkPoint2D 10 10)) [] (0, 0)%nat;
              mkBlock ImageBlock ""
                (mkBBOX (mkPoint2D 0 0) (mkPoint2D 10 10)) [] (0, 0)%nat]
             "doctr", 2%nat).
Proof. repeat split. Qed.

Lemma is_image_or_table_cls det :
  is_image_or_table det = true ->
  exists cls, block_cls_map (label det) = Some cls
              /\ issubclass_TextBlock cls = false.
Proof.
  unfold is_image_or_table. simpl. rewrite !orb_true_iff.
  intros [H | [H | H]]; try discriminate; apply Z.eqb_eq in H; rewrite H.
  - exists ImageBlock. split; reflexivity.
  - exists TableBlock. split; reflexivity.
Qed.



(** ** Errors stop the loops *)







Lemma to_elements_list_raises gen doc layouts s (e : exn) :
  pages_loop gen 0 (doctr.pages doc) layouts [] s = Raise e ->
  to_elements_list gen doc layouts s = Raise e.
Proof.
  intro H. unfold to_elements_list, bind. now rewrite H.
Qed.





(** ** Reading order *)

Section Sorting.

Context {A : Type} (key : A -> Q).

Lemma insert_by_key_perm (a : A) (l : list A) :
  Permutation (a :: l) (insert_by_key key a l).
Proof.
  induction l as [|b l IH]; simpl; [apply Permutation_refl|].
  destruct (Qltb (key b) (key a)); [|apply Permutation_refl].
  apply perm_trans with (b :: a :: l); [apply perm_swap|].
  now apply perm_skip.
Qed.

Lemma sorted_perm (l : list A) : Permutation l (sorted key l).
Proof.
  induction l as [|a l IH]; simpl; [apply perm_nil|].
  apply perm_trans with (a :: sorted key l); [now apply perm_skip|].
  apply insert_by_key_perm.
Qed.

Lemma insert_by_key_sorted (a : A) (l : list A) :
  Sorted (key_le key) l -> Sorted (key_le key) (insert_by_key key a l).
Proof.
  induction l as [|b l IH]; intro Hs; simpl.
  - repeat constructor.
  - destruct (Qltb (key b) (key a)) eqn:E.
    + apply Sorted_inv in Hs. destruct Hs as [Hs Hhd].
      constructor; [now apply IH|].
      apply Qltb_true in E. destruct l as [|c l]; simpl.
      * constructor. unfold key_le. now apply Qlt_le_weak.
      * destruct (Qltb (key c) (key a)).
        -- constructor. now inversion Hhd.
        -- constructor. unfold key_le. now apply Qlt_le_weak.
    + apply Qltb_false in E. constructor; [exact Hs|]. now constructor.
Qed.

Lemma sorted_Sorted (l : list A) : Sorted (key_le key) (sorted key l).
Proof.
  induction l as [|a l IH]; simpl; [constructor|].
  now apply insert_by_key_sorted.
Qed.

Lemma sorted_StronglySorted (l : list A) :
  StronglySorted (key_le key) (sorted key l).
Proof.
  apply Sorted_StronglySorted; [|apply sorted_Sorted].
  intros a b c Hab Hbc. unfold key_le in *. now apply Qle_trans with (key b).
Qed.

(** Stability: the elements of any one key come out in the order they went
    in. *)
Lemma insert_by_key_stable (k : Q) (a : A) (l : list A) :
  filter (fun b => Qeq_bool (key b) k) (insert_by_key key a l)
  = filter (fun b => Qeq_bool (key b) k) (a :: l).
Proof.
  induction l as [|b l IH]; [reflexivity|].
  simpl insert_by_key. destruct (Qltb (key b) (key a)) eqn:E; [|reflexivity].
  apply Qltb_true in E. simpl in *. rewrite IH.
  destruct (Qeq_bool (key b) k) eqn:Eb; [|reflexivity].
  destruct (Qeq_bool (key a) k) eqn:Ea; [|reflexivity].
  apply Qeq_bool_iff in Eb, Ea. rewrite Eb, Ea in E.
  exfalso. exact (Qlt_irrefl _ E).
Qed.

Lemma sorted_stable (k : Q) (l : list A) :
  filter (fun b => Qeq_bool (key b) k) (sorted key l)
  = filter (fun b => Qeq_bool (key b) k) l.
Proof.
  induction l as [|a l IH]; [reflexivity|].
  simpl sorted. rewrite insert_by_key_stable. simpl. now rewrite IH.
Qed.

End Sorting.

Lemma page_maps_length gen pages :
  forall pn layouts s,
    match page_maps gen pn pages layouts s with
    | Ok (maps, _) =>
        List.length maps = List.length pages
        /\ List.length maps = List.length layouts
    | Raise _ => True
    end.
Proof.
  induction pages as [|page pages IH]; intros pn layouts s;
    destruct layouts as [|layout layouts]; simpl; auto.
  unfold bind.
  destruct (page_result gen pn page layout s) as [[r s1]|e]; [|exact I].
  specialize (IH (S pn) layouts s1).
  destruct (page_maps gen (S pn) pages layouts s1) as [[maps s2]|e];
    [|exact I].
  simpl. destruct IH as [-> ->]. auto.
Qed.

Lemma pages_loop_page_maps gen pages :
  forall pn layouts results s,
    pages_loop gen pn pages layouts results s
    = match page_maps gen pn pages layouts s with
      | Ok (maps, s') =>
          Ok (results
              ++ List.concat (map (fun r => sorted top_edge (dict_values r)) maps),
              s')
      | Raise e => Raise e
      end.
Proof.
  induction pages as [|page pages IH]; intros pn layouts results s;
    destruct layouts as [|layout layouts]; simpl; try reflexivity.
  - unfold ret. now rewrite app_nil_r.
  - unfold bind.
    destruct (page_result gen pn page layout s) as [[r s1]|e]; [|reflexivity].
    rewrite IH.
    destruct (page_maps gen (S pn) pages layouts s1) as [[maps s2]|e];
      [|reflexivity].
    unfold ret. simpl. now rewrite app_assoc.
Qed.

(** Claim C6.  The content of the document is the concatenation, in the
    order of the pages, of the blocks of each page map sorted by the
    top-edge y-coordinate, one map per page, and the assembly raises
    exactly when a page map cannot be built; the sorted blocks of a page
    are a permutation of the
    blocks of its map, in ascending order of top-edge y-coordinate, the
    blocks of one and the same y-coordinate keeping the order in which the
    map holds them. *)
Theorem document_reading_order gen doc layouts s :
  to_elements_list gen doc layouts s
  = match page_maps gen 0 (doctr.pages doc) layouts s with
    | Ok (maps, s') =>
        Ok (mkMPDocument []
              (List.concat (map (fun r => sorted top_edge (dict_values r)) maps))
              "doctr", s')
    | Raise e => Raise e
    end
  /\ match page_maps gen 0 (doctr.pages doc) layouts s with
     | Ok (maps, _) =>
         List.length maps = List.length (doctr.pages doc)
         /\ List.length maps = List.length layouts
     | Raise _ => True
     end
  /\ forall page_blocks : list Block,
      Permutation page_blocks (sorted top_edge page_blocks)
      /\ StronglySorted (key_le top_edge)
           (sorted top_edge page_blocks)
      /\ forall k,
           filter (fun b => Qeq_bool (top_edge b) k)
             (sorted top_edge page_blocks)
           = filter (fun b => Qeq_bool (top_edge b) k) page_blocks.
Proof.
  split; [|split].
  - unfold to_elements_list, bind. rewrite pages_loop_page_maps.
    destruct (page_maps gen 0 (doctr.pages doc) layouts s) as [[maps s']|e];
      reflexivity.
  - apply page_maps_length.
  - intro page_blocks. split; [apply sorted_perm|].
    split; [apply sorted_StronglySorted | intro k; apply sorted_stable].
Qed.

(** Two pages; on the first, two undefined blocks share the top edge 5 and
    keep the order of their lines behind the block of top edge 1. *)
Example two_pages_in_reading_order :
  option_map (map text)
    (match to_elements_list sample_gen
             (doctr.mkDocument
                [one_block_page [doctr.mkLine [word "b" 0 5 1 6];
                                 doctr.mkLine [word "c" 2 5 3 6];
                                 doctr.mkLine [word "a" 0 1 1 2]];
                 one_block_page [doctr.mkLine [word "d" 0 0 1 1]]])
             [[]; []] 0%nat with
     | Ok (d, _) => Some (content d)
     | Raise _ => None
     end)
  = Some ["a"; "b"; "c"; "d"]%string.
Proof. reflexivity. Qed.

(** * Further properties of the parser *)

(** ** The box of a line *)

Lemma py_min_le_l a b : py_min a b <= a.
Proof. rewrite py_min_spec. apply Q.le_min_l. Qed.

Lemma py_min_le_r a b : py_min a b <= b.
Proof. rewrite py_min_spec. apply Q.le_min_r. Qed.

Lemma py_max_ge_l a b : a <= py_max a b.
Proof. rewrite py_max_spec. apply Q.le_max_l. Qed.

Lemma py_max_ge_r a b : b <= py_max a b.
Proof. rewrite py_max_spec. apply Q.le_max_r. Qed.

Lemma fold_py_min_le l : forall a,
  fold_left py_min l a <= a
  /\ Forall (fun v => fold_left py_min l a <= v) l.
Proof.
  induction l as [|b l IH]; intro a; simpl.
  - split; [apply Qle_refl | constructor].
  - destruct (IH (py_min a b)) as [H1 H2]. split.
    + eapply Qle_trans; [exact H1 | apply py_min_le_l].
    + constructor; [|exact H2].
      eapply Qle_trans; [exact H1 | apply py_min_le_r].
Qed.

Lemma fold_py_max_ge l : forall a,
  a <= fold_left py_max l a
  /\ Forall (fun v => v <= fold_left py_max l a) l.
Proof.
  induction l as [|b l IH]; intro a; simpl.
  - split; [apply Qle_refl | constructor].
  - destruct (IH (py_max a b)) as [H1 H2]. split.
    + eapply Qle_trans; [apply py_max_ge_l | exact H1].
    + constructor; [|exact H2].
      eapply Qle_trans; [apply py_max_ge_r | exact H1].
Qed.

Lemma fold_py_min_in l : forall a, In (fold_left py_min l a) (a :: l).
Proof.
  induction l as [|b l IH]; intro a; simpl; [now left|].
  destruct (IH (py_min a b)) as [H | H]; [|now right; right].
  rewrite <- H. unfold py_min. destruct (Qltb b a); auto.
Qed.

Lemma fold_py_max_in l : forall a, In (fold_left py_max l a) (a :: l).
Proof.
  induction l as [|b l IH]; intro a; simpl; [now left|].
  destruct (IH (py_max a b)) as [H | H]; [|now right; right].
  rewrite <- H. unfold py_max. destruct (Qltb a b); auto.
Qed.

Lemma min_seq_spec l :
  l <> [] ->
  exists m, min_seq l = Ok m /\ In m l /\ Forall (fun v => m <= v) l.
Proof.
  destruct l as [|a l]; [contradiction|]. intros _.
  exists (fold_left py_min l a). split; [reflexivity|].
  split; [apply fold_py_min_in|].
  destruct (fold_py_min_le l a) as [H1 H2]. now constructor.
Qed.

Lemma max_seq_spec l :
  l <> [] ->
  exists m, max_seq l = Ok m /\ In m l /\ Forall (fun v => v <= m) l.
Proof.
  destruct l as [|a l]; [contradiction|]. intros _.
  exists (fold_left py_max l a). split; [reflexivity|].
  split; [apply fold_py_max_in|].
  destruct (fold_py_max_ge l a) as [H1 H2]. now constructor.
Qed.

Lemma map_nonempty {A B} (f : A -> B) (l : list A) : l <> [] -> map f l <> [].
Proof. destruct l; [contradiction | discriminate]. Qed.

(** The box of a line with at least one word: each coordinate is the
    coordinate of one of its words, and the box holds every word box. *)
Lemma line_box_spec line :
  doctr.words line <> [] ->
  exists x0 y0 x1 y1,
    line_box line = Ok (x0, y0, x1, y1)
    /\ In x0 (map (fun w => fst (fst (doctr.geometry w))) (doctr.words line))
    /\ In y0 (map (fun w => snd (fst (doctr.geometry w))) (doctr.words line))
    /\ In x1 (map (fun w => fst (snd (doctr.geometry w))) (doctr.words line))
    /\ In y1 (map (fun w => snd (snd (doctr.geometry w))) (doctr.words line))
    /\ Forall (encloses (x0, y0, x1, y1)) (doctr.words line).
Proof.
  intro Hne. unfold line_box. rewrite !map_map.
  set (ws := doctr.words line) in *.
  destruct (min_seq_spec (map (fun w => fst (fst (doctr.geometry w))) ws))
    as (x0 & -> & Ix0 & Fx0); [now apply map_nonempty|].
  destruct (min_seq_spec (map (fun w => snd (fst (doctr.geometry w))) ws))
    as (y0 & -> & Iy0 & Fy0); [now apply map_nonempty|].
  destruct (max_seq_spec (map (fun w => fst (snd (doctr.geometry w))) ws))
    as (x1 & -> & Ix1 & Fx1); [now apply map_nonempty|].
  destruct (max_seq_spec (map (fun w => snd (snd (doctr.geometry w))) ws))
    as (y1 & -> & Iy1 & Fy1); [now apply map_nonempty|].
  exists x0, y0, x1, y1. split; [reflexivity|].
  split; [exact Ix0 | split; [exact Iy0 | split; [exact Ix1 |]]].
  split; [exact Iy1|].
  rewrite Forall_map in Fx0, Fy0, Fx1, Fy1.
  rewrite Forall_forall in *. intros w Hw.
  specialize (Fx0 w Hw). specialize (Fy0 w Hw).
  specialize (Fx1 w Hw). specialize (Fy1 w Hw).
  unfold encloses. destruct (doctr.geometry w) as [[wx0 wy0] [wx1 wy1]].
  simpl in *. auto.
Qed.

(** Property X1.  The box of a line is the smallest box around its words: it holds every
    word box, and each of its four coordinates is attained by a word. *)
Theorem line_box_encloses_words line :
  doctr.words line <> [] ->
  exists x0 y0 x1 y1,
    line_box line = Ok (x0, y0, x1, y1)
    /\ Forall (encloses (x0, y0, x1, y1)) (doctr.words line)
    /\ In x0 (map (fun w => fst (fst (doctr.geometry w))) (doctr.words line))
    /\ In y0 (map (fun w => snd (fst (doctr.geometry w))) (doctr.words line))
    /\ In x1 (map (fun w => fst (snd (doctr.geometry w))) (doctr.words line))
    /\ In y1 (map (fun w => snd (snd (doctr.geometry w))) (doctr.words line)).
Proof.
  intro Hne.
  destruct (line_box_spec line Hne)
    as (x0 & y0 & x1 & y1 & Hbox & Ix0 & Iy0 & Ix1 & Iy1 & Henc).
  exists x0, y0, x1, y1. auto 10.
Qed.

Lemma line_box_encloses_words_witness :
  doctr.words (doctr.mkLine [word "a" 3 1 5 2; word "b" 6 0 9 2]) <> []
  /\ exists x0 y0 x1 y1,
       line_box (doctr.mkLine [word "a" 3 1 5 2; word "b" 6 0 9 2])
       = Ok (x0, y0, x1, y1)
       /\ Forall (encloses (x0, y0, x1, y1))
            [word "a" 3 1 5 2; word "b" 6 0 9 2].
Proof.
  assert (H : doctr.words (doctr.mkLine [word "a" 3 1 5 2; word "b" 6 0 9 2])
              <> []) by discriminate.
  split; [exact H|].
  destruct (line_box_encloses_words _ H)
    as (x0 & y0 & x1 & y1 & Hbox & Henc & _).
  exists x0, y0, x1, y1. split; [exact Hbox | exact Henc].
Defined.

(** ** Inputs on which the assembly cannot fail *)

Lemma Exists_nonempty {A} (P : A -> Prop) (l : list A) : Exists P l -> l <> [].
Proof. intros H. destruct H; discriminate. Qed.











(** ** Pages and layouts of different numbers *)

Lemma page_maps_mismatch gen pages :
  forall layouts pn s,
    List.length pages <> List.length layouts ->
    exists e, page_maps gen pn pages layouts s = Raise e.
Proof.
  induction pages as [|page pages IH]; intros layouts pn s Hlen;
    destruct layouts as [|layout layouts]; simpl.
  - contradiction.
  - eexists. reflexivity.
  - eexists. reflexivity.
  - unfold bind.
    destruct (page_result gen pn page layout s) as [[r s1]|e];
      [|now exists e].
    destruct (IH layouts (S pn) s1) as [e ->]; [simpl in Hlen; lia|].
    now exists e.
Qed.

Lemma page_maps_mismatch_zip gen pages :
  forall layouts pn s maps s',
    List.length pages <> List.length layouts ->
    page_maps gen pn
      (firstn (List.length layouts) pages) (firstn (List.length pages) layouts) s
    = Ok (maps, s') ->
    page_maps gen pn pages layouts s
    = Raise (ValueError
               (if Nat.ltb (List.length layouts) (List.length pages)
                then "zip() argument 2 is shorter than argument 1"
                else "zip() argument 2 is longer than argument 1")).
Proof.
  induction pages as [|page pages IH]; intros layouts pn s maps s' Hlen Hpre;
    destruct layouts as [|layout layouts]; simpl in *.
  - contradiction.
  - reflexivity.
  - reflexivity.
  - unfold bind in *.
    destruct (page_result gen pn page layout s) as [[r s1]|e];
      [|discriminate].
    destruct (page_maps gen (S pn) (firstn (List.length layouts) pages)
                (firstn (List.length pages) layouts) s1)
      as [[maps1 s2]|e] eqn:E; [|discriminate].
    rewrite (IH layouts (S pn) s1 maps1 s2); [|lia|exact E].
    reflexivity.
Qed.

(** Property X3.  With a number of layouts different from the number of
    pages the assembly returns no document; when the pages that do have a
    layout are processed without error, the error is the [ValueError] of
    [zip(..., strict=True)], raised after those pages. *)
Theorem to_elements_list_length_mismatch gen doc layouts s :
  List.length (doctr.pages doc) <> List.length layouts ->
  (exists e, to_elements_list gen doc layouts s = Raise e)
  /\ forall maps s',
      page_maps gen 0
        (firstn (List.length layouts) (doctr.pages doc))
        (firstn (List.length (doctr.pages doc)) layouts) s
      = Ok (maps, s') ->
      to_elements_list gen doc layouts s
      = Raise (ValueError
                 (if Nat.ltb (List.length layouts)
                             (List.length (doctr.pages doc))
                  then "zip() argument 2 is shorter than argument 1"
                  else "zip() argument 2 is longer than argument 1")).
Proof.
  intro Hlen. split.
  - destruct (page_maps_mismatch gen (doctr.pages doc) layouts 0%nat s Hlen)
      as [e He].
    exists e. apply to_elements_list_raises.
    now rewrite pages_loop_page_maps, He.
  - intros maps s' Hpre. apply to_elements_list_raises.
    rewrite pages_loop_page_maps.
    now rewrite (page_maps_mismatch_zip gen (doctr.pages doc) layouts 0%nat s
                   maps s' Hlen Hpre).
Qed.

Lemma to_elements_list_length_mismatch_witness :
  List.length (doctr.pages (doctr.mkDocument [hello_world_page; hello_world_page]))
  <> List.length [[region 7 0 0 100 20 10]]
  /\ to_elements_list sample_gen
       (doctr.mkDocument [hello_world_page; hello_world_page])
       [[region 7 0 0 100 20 10]] 0%nat
     = Raise (ValueError "zip() argument 2 is shorter than argument 1").
Proof.
  assert (H : List.length
                (doctr.pages (doctr.mkDocument [hello_world_page; hello_world_page]))
              <> List.length [[region 7 0 0 100 20 10]]) by discriminate.
  split; [exact H|].
  exact (proj2 (to_elements_list_length_mismatch sample_gen
                  (doctr.mkDocument [hello_world_page; hello_world_page])
                  [[region 7 0 0 100 20 10]] 0%nat H) _ _ eq_refl).
Defined.

(** ** Page ranges *)

Lemma dict_set_values_Forall (P : Block -> Prop) k b d :
  Forall P (dict_values d) -> P b -> Forall P (dict_values (dict_set k b d)).
Proof.
  intros Hd Hb. induction d as [|[k' b'] d IH]; simpl.
  - now constructor.
  - inversion Hd as [|? ? Hb' Hd']; subst.
    destruct (N.eqb k k'); simpl; constructor; auto.
Qed.

Lemma dict_get_values_Forall (P : Block -> Prop) k b d :
  Forall P (dict_values d) -> dict_get k d = Some b -> P b.
Proof.
  intros Hd. induction d as [|[k' b'] d IH]; simpl; [discriminate|].
  inversion Hd as [|? ? Hb' Hd']; subst.
  destruct (N.eqb k k'); [intros [= <-]; exact Hb' | auto].
Qed.

Lemma accumulate_on_page id cls t c pn result :
  Forall (on_page pn) (dict_values result) ->
  Forall (on_page pn) (dict_values (accumulate id cls t c pn result)).
Proof.
  intro Hinv. destruct c as [[[x0 y0] x1] y1]. unfold accumulate.
  destruct (dict_get id result) as [b|] eqn:Hget.
  - pose proof (dict_get_values_Forall _ _ _ _ Hinv Hget) as Hb.
    destruct b as [bc bt [[bx0 by0] [bx1 by1]] bm bp]. simpl.
    apply dict_set_values_Forall; [exact Hinv | exact Hb].
  - destruct (issubclass_TextBlock cls); [|exact Hinv].
    apply dict_set_values_Forall; [exact Hinv | split; reflexivity].
Qed.

Lemma process_line_on_page gen pn layout line result s result' s' :
  Forall (on_page pn) (dict_values result) ->
  process_line gen pn layout line result s = Ok (result', s') ->
  Forall (on_page pn) (dict_values result').
Proof.
  intros Hinv. unfold process_line, bind, lift, ret.
  destruct (line_box line) as [c|e]; [|discriminate].
  destruct (_get_block_cls gen c layout default_threshold s)
    as [[[id cls] s1]|e]; [|discriminate].
  intros [= <- <-]. now apply accumulate_on_page.
Qed.

Lemma inject_region_on_page gen pn det result s result' s' :
  Forall (on_page pn) (dict_values result) ->
  inject_region gen pn det result s = Ok (result', s') ->
  Forall (on_page pn) (dict_values result').
Proof.
  intros Hinv. unfold inject_region.
  destruct (is_image_or_table det); [|now intros [= <- <-]].
  destruct det as [id [[X1 Y1] [X2 Y2]] lbl]. simpl.
  unfold bind, lift, ret, uuid4.
  destruct (block_cls_map_getitem lbl) as [cls|e]; [|discriminate].
  intros [= <- <-]. apply dict_set_values_Forall; [exact Hinv|].
  split; reflexivity.
Qed.

Lemma for_each_invariant {A S} (P : S -> Prop) (body : A -> S -> M S) l :
  (forall a st s st' s', P st -> body a st s = Ok (st', s') -> P st') ->
  forall st s st' s',
    P st -> for_each body l st s = Ok (st', s') -> P st'.
Proof.
  intro Hbody. induction l as [|a l IH]; intros st s st' s' Hst; simpl.
  - now intros [= <- <-].
  - unfold bind. destruct (body a st s) as [[st1 s1]|e] eqn:E; [|discriminate].
    apply IH. now apply (Hbody a st s st1 s1).
Qed.

Lemma page_result_on_page gen pn page layout s result s' :
  page_result gen pn page layout s = Ok (result, s') ->
  Forall (on_page pn) (dict_values result).
Proof.
  unfold page_result.
  apply (for_each_invariant (fun r => Forall (on_page pn) (dict_values r)));
    [|constructor].
  intros block st s0 st' s0' Hst. unfold process_block.
  destruct (negb (Nat.eqb (List.length (doctr.lines block)) 0)
            && Nat.ltb 0 (List.length (doctr.artefacts block)));
    [discriminate|].
  unfold bind.
  destruct (for_each (process_line gen pn layout) (doctr.lines block) st s0)
    as [[r1 s1]|e] eqn:E; [|discriminate].
  apply (for_each_invariant (fun r => Forall (on_page pn) (dict_values r))).
  - intros det. apply inject_region_on_page.
  - revert E.
    apply (for_each_invariant (fun r => Forall (on_page pn) (dict_values r)));
      [|exact Hst].
    intros line. apply process_line_on_page.
Qed.

Lemma page_maps_on_page gen pages :
  forall layouts pn s maps s',
    page_maps gen pn pages layouts s = Ok (maps, s') ->
    forall i r, nth_error maps i = Some r ->
                Forall (on_page (pn + i)) (dict_values r).
Proof.
  induction pages as [|page pages IH]; intros layouts pn s maps s';
    destruct layouts as [|layout layouts]; simpl; try discriminate.
  - intros [= <- <-] i r. destruct i; discriminate.
  - unfold bind.
    destruct (page_result gen pn page layout s) as [[r0 s1]|e] eqn:E;
      [|discriminate].
    destruct (page_maps gen (S pn) pages layouts s1) as [[maps1 s2]|e] eqn:E1;
      [|discriminate].
    intros [= <- <-] i r Hi. destruct i as [|i]; simpl in Hi.
    + injection Hi as <-. rewrite Nat.add_0_r.
      now apply (page_result_on_page gen pn page layout s r0 s1).
    + replace (pn + S i)%nat with (S pn + i)%nat by lia.
      now apply (IH layouts (S pn) s1 maps1 s2 E1).
Qed.

(** Property X4.  In a document the assembly returns, the content is made
    of one run of blocks per page, in the order of the pages, and every
    block of the run of page [i] has the page range [(i, i)] and empty
    metadata: a block never spans two pages, also when its lines come from
    several recognized blocks of the page.  The document itself has empty
    metadata and the origin "doctr". *)
Theorem document_blocks_by_page gen doc layouts s d s' :
  to_elements_list gen doc layouts s = Ok (d, s') ->
  doc_metadata d = []
  /\ detection_origin d = "doctr"%string
  /\ exists runs,
       content d = List.concat runs
       /\ List.length runs = List.length (doctr.pages doc)
       /\ forall i run,
            nth_error runs i = Some run -> Forall (on_page i) run.
Proof.
  unfold to_elements_list, bind. rewrite pages_loop_page_maps.
  pose proof (page_maps_length gen (doctr.pages doc) 0%nat layouts s) as Hlen.
  destruct (page_maps gen 0 (doctr.pages doc) layouts s) as [[maps s1]|e] eqn:E;
    [|discriminate].
  intros [= <- <-]. simpl. split; [reflexivity | split; [reflexivity|]].
  exists (map (fun r => sorted top_edge (dict_values r)) maps).
  split; [reflexivity|]. split; [rewrite length_map; apply Hlen|].
  intros i run Hi. rewrite nth_error_map in Hi.
  destruct (nth_error maps i) as [r|] eqn:Hr; [|discriminate].
  injection Hi as <-.
  apply (Permutation_Forall (sorted_perm top_edge (dict_values r))).
  exact (page_maps_on_page gen (doctr.pages doc) layouts 0%nat s maps s1 E i r Hr).
Qed.

Lemma document_blocks_by_page_witness :
  to_elements_list sample_gen (doctr.mkDocument [hello_world_page])
    [[region 7 0 0 100 20 10]] 0%nat
  = Ok (mkMPDocument []
          [mkBlock TitleBlock ("Hello" ++ newline ++ "World")
             (mkBBOX (mkPoint2D 5 2) (mkPoint2D 95 19)) [] (0, 0)%nat]
          "doctr", 0%nat)
  /\ exists runs,
       [mkBlock TitleBlock ("Hello" ++ newline ++ "World")
          (mkBBOX (mkPoint2D 5 2) (mkPoint2D 95 19)) [] (0, 0)%nat]
       = List.concat runs
       /\ List.length runs = 1%nat.
Proof.
  assert (H : to_elements_list sample_gen (doctr.mkDocument [hello_world_page])
                [[region 7 0 0 100 20 10]] 0%nat
              = Ok (mkMPDocument []
                      [mkBlock TitleBlock ("Hello" ++ newline ++ "World")
                         (mkBBOX (mkPoint2D 5 2) (mkPoint2D 95 19)) []
                         (0, 0)%nat]
                      "doctr", 0%nat)) by reflexivity.
  split; [exact H|].
  destruct (document_blocks_by_page _ _ _ _ _ _ H)
    as (_ & _ & runs & Hc & Hl & _).
  exists runs. split; [exact Hc | exact Hl].
Defined.

(** ** The overlap ratio and the threshold *)





(** ** What the matcher can return *)

(** Property X6.  Whatever the boxes and labels are, a pair the matcher
    returns is one of two things.  Either it is the identifier of a region
    of the layout with the class [block_cls_map] gives its label, the test
    of the loop succeeded on that region and failed without error on every
    region before it, and no identifier was generated; or it is the next
    generated identifier with [UndefinedBlock], exactly one identifier was
    generated and the test failed without error on every region.  So the
    matcher never returns a class for a region it has not tested, never
    generates an identifier it does not return, and never gets past a region
    whose test raises. *)
Theorem get_block_cls_inversion gen c layout threshold s id cls s' :
  _get_block_cls gen c layout threshold s = Ok ((id, cls), s') ->
  (s' = s
   /\ exists pre det post,
        layout = pre ++ det :: post
        /\ Forall (fun d => overlap_exceeds c d threshold = Ok false) pre
        /\ overlap_exceeds c det threshold = Ok true
        /\ id = bbox_id det
        /\ block_cls_map (label det) = Some cls)
  \/ (s' = S s
      /\ id = gen s
      /\ cls = UndefinedBlock
      /\ Forall (fun d => overlap_exceeds c d threshold = Ok false) layout).
Proof.
  induction layout as [|det layout IH]; simpl.
  - unfold bind, ret, uuid4. intros [= <- <- <-]. right. auto.
  - unfold bind, lift.
    destruct (overlap_exceeds c det threshold) as [[|]|e] eqn:E;
      [| |discriminate].
    + unfold block_cls_map_getitem.
      destruct (block_cls_map (label det)) as [cls0|] eqn:Hcls;
        [|discriminate].
      unfold ret. intros [= <- <- <-]. left. split; [reflexivity|].
      exists [], det, layout. auto.
    + intro Hrun. destruct (IH Hrun)
        as [[Hs (pre & d & post & -> & Hpre & Hd & Hid & Hc)]
           | (Hs & Hid & Hc & Hall)].
      * left. split; [exact Hs|].
        exists (det :: pre), d, post. auto.
      * right. auto.
Qed.

Lemma get_block_cls_inversion_witness :
  _get_block_cls sample_gen (0, 0, 10, 10) sample_layout default_threshold
    0%nat = Ok ((7%N, TextBlock), 0%nat)
  /\ ((0%nat = 0%nat
       /\ exists pre det post,
            sample_layout = pre ++ det :: post
            /\ Forall (fun d => overlap_exceeds (0, 0, 10, 10) d
                                  default_threshold = Ok false) pre
            /\ overlap_exceeds (0, 0, 10, 10) det default_threshold = Ok true
            /\ 7%N = bbox_id det
            /\ block_cls_map (label det) = Some TextBlock)
      \/ (0%nat = 1%nat
          /\ 7%N = sample_gen 0
          /\ TextBlock = UndefinedBlock
          /\ Forall (fun d => overlap_exceeds (0, 0, 10, 10) d
                                default_threshold = Ok false) sample_layout)).
Proof.
  assert (H : _get_block_cls sample_gen (0, 0, 10, 10) sample_layout
                default_threshold 0%nat = Ok ((7%N, TextBlock), 0%nat))
    by reflexivity.
  split; [exact H|].
  exact (get_block_cls_inversion sample_gen (0, 0, 10, 10) sample_layout
           default_threshold 0%nat 7%N TextBlock 0%nat H).
Defined.

(** ** Labels that are injected and labels that take lines *)

Lemma block_cls_map_non_text lbl cls :
  block_cls_map lbl = Some cls ->
  issubclass_TextBlock cls = false ->
  lbl = 6%Z \/ lbl = 8%Z.
Proof.
  intros Hmap Hcls. unfold block_cls_map in Hmap.
  destruct lbl as [|p|p]; [| |discriminate].
  - injection Hmap as <-. discriminate.
  - do 4 (try destruct p as [p|p|]); try discriminate;
      injection Hmap as <-; try discriminate; auto.
Qed.

(** Property X7.  The labels whose regions are injected as blocks of their
    own (6 and 8) are exactly the labels of [block_cls_map] whose class
    takes no line: a region either receives the lines matched to it or is
    injected, and the lookup of the injection never raises [KeyError]. *)
Theorem injected_labels_take_no_lines det :
  is_image_or_table det = true
  <-> exists cls,
        block_cls_map (label det) = Some cls
        /\ issubclass_TextBlock cls = false.
Proof.
  split; [apply is_image_or_table_cls|].
  intros (cls & Hmap & Hcls).
  destruct (block_cls_map_non_text _ _ Hmap Hcls) as [H | H];
    unfold is_image_or_table; rewrite H; reflexivity.
Qed.

(** ** Generated identifiers that are new to the page map *)

Lemma dict_get_app_new k k' b d :
  dict_get k d = None -> k <> k' -> dict_get k (d ++ [(k', b)]) = None.
Proof.
  intros Hget Hne. induction d as [|[k0 b0] d IH]; simpl in *.
  - destruct (N.eqb k k') eqn:E; [apply N.eqb_eq in E; contradiction|].
    reflexivity.
  - destruct (N.eqb k k0); [discriminate | auto].
Qed.

Lemma fresh_after_append gen s n k b d :
  NoDup (map gen (seq s (S n))) ->
  Forall (fun u => dict_get u d = None) (map gen (seq s (S n))) ->
  k = gen s ->
  NoDup (map gen (seq (S s) n))
  /\ Forall (fun u => dict_get u (d ++ [(k, b)]) = None) (map gen (seq (S s) n)).
Proof.
  simpl. intros Hnd Hfresh ->.
  inversion Hnd as [|? ? Hnotin Hnd']; subst.
  inversion Hfresh as [|? ? _ Hfresh']; subst.
  split; [exact Hnd'|].
  rewrite Forall_forall in *. intros u Hu.
  apply dict_get_app_new; [now apply Hfresh'|].
  intros ->. contradiction.
Qed.

Lemma get_block_cls_all_miss gen c layout threshold s :
  Forall (fun d => overlap_exceeds c d threshold = Ok false) layout ->
  _get_block_cls gen c layout threshold s = Ok ((gen s, UndefinedBlock), S s).
Proof.
  induction 1 as [|det layout Hmiss _ IH]; [reflexivity|].
  now rewrite get_block_cls_miss.
Qed.

(** Property X8.  Lines that have words and overlap no region above the
    threshold (every test of the loop fails without error; always so with
    an empty layout, whatever the line boxes are) each become a block of
    their own: when the identifiers generated for them are distinct and new
    to the page map, the map gets one [UndefinedBlock] per line, in the
    order of the lines, with the line's rendered text and exactly the
    line's box, and one identifier is generated per line. *)
Theorem unmatched_lines_become_undefined_blocks gen pn layout :
  forall lines boxes result s,
    Forall2 (fun line c =>
               line_box line = Ok c
               /\ Forall (fun d => overlap_exceeds c d default_threshold
                                   = Ok false) layout)
            lines boxes ->
    NoDup (map gen (seq s (List.length lines))) ->
    Forall (fun u => dict_get u result = None)
           (map gen (seq s (List.length lines))) ->
    for_each (process_line gen pn layout) lines result s
    = Ok (result
          ++ map (fun '(n, (line, c)) =>
                    (gen n, mkBlock UndefinedBlock (doctr.render line)
                              (box_of c) [] (pn, pn)))
                 (combine (seq s (List.length lines)) (combine lines boxes)),
          (s + List.length lines)%nat).
Proof.
  intros lines boxes result s H. revert result s.
  induction H as [|line c lines boxes [Hbox Hmiss] _ IH]; intros result s Hnd Hfresh.
  - simpl. unfold ret. now rewrite app_nil_r, Nat.add_0_r.
  - change (List.length (line :: lines)) with (S (List.length lines)) in *.
    assert (Hstep : process_line gen pn layout line result s
                    = Ok (result ++ [(gen s,
                                      mkBlock UndefinedBlock (doctr.render line)
                                        (box_of c) [] (pn, pn))], S s)).
    { unfold process_line, bind, lift, ret. rewrite Hbox.
      rewrite get_block_cls_all_miss by exact Hmiss.
      rewrite accumulate_new; [reflexivity | | reflexivity].
      simpl in Hfresh. now inversion Hfresh. }
    destruct (fresh_after_append gen s (List.length lines) (gen s)
                (mkBlock UndefinedBlock (doctr.render line) (box_of c) []
                   (pn, pn)) result Hnd Hfresh eq_refl) as [Hnd' Hfresh'].
    cbn [for_each]. unfold bind at 1. rewrite Hstep.
    rewrite (IH _ (S s) Hnd' Hfresh').
    cbn [seq combine map]. rewrite <- app_assoc. simpl.
    now rewrite Nat.add_succ_r.
Qed.

Lemma unmatched_lines_become_undefined_blocks_witness :
  for_each (process_line sample_gen 0 [])
    [doctr.mkLine [word "a" 0 0 10 10]; doctr.mkLine [word "b" 0 0 0 0]]
    [] 0%nat
  = Ok ([(sample_gen 0, mkBlock UndefinedBlock "a" (box_of (0, 0, 10, 10)) []
                          (0, 0)%nat);
         (sample_gen 1, mkBlock UndefinedBlock "b" (box_of (0, 0, 0, 0)) []
                          (0, 0)%nat)], 2%nat).
Proof.
  refine (unmatched_lines_become_undefined_blocks sample_gen 0%nat []
            [doctr.mkLine [word "a" 0 0 10 10]; doctr.mkLine [word "b" 0 0 0 0]]
            [(0, 0, 10, 10); (0, 0, 0, 0)] [] 0%nat _ _ _).
  - repeat constructor.
  - repeat constructor; simpl; intuition discriminate.
  - repeat constructor.
Defined.

(** Property X9.  One run of the injection loop over a layout, when the
    identifiers it generates are distinct and new to the page map: the map
    gets exactly one block per region of label 6 or 8, after the blocks it
    holds and in the order of the layout, each with the class of the label,
    empty text, the region's own bbox and the page range of the page; the
    blocks held before are untouched and one identifier is generated per
    such region. *)
Theorem injection_adds_one_block_per_region gen pn layout :
  forall result s,
    NoDup (map gen (seq s (List.length (filter is_image_or_table layout)))) ->
    Forall (fun u => dict_get u result = None)
           (map gen (seq s (List.length (filter is_image_or_table layout)))) ->
    for_each (inject_region gen pn) layout result s
    = Ok (result
          ++ map (fun '(n, det) =>
                    (gen n, mkBlock (injected_cls det) "" (det_bbox det) []
                              (pn, pn)))
                 (combine
                    (seq s (List.length (filter is_image_or_table layout)))
                    (filter is_image_or_table layout)),
          (s + List.length (filter is_image_or_table layout))%nat).
Proof.
  induction layout as [|det layout IH]; intros result s Hnd Hfresh.
  - simpl. unfold ret. now rewrite app_nil_r, Nat.add_0_r.
  - cbn [for_each filter] in *. unfold bind at 1.
    destruct (is_image_or_table det) eqn:E.
    + change (List.length (det :: filter is_image_or_table layout))
        with (S (List.length (filter is_image_or_table layout))) in *.
      assert (Hstep : inject_region gen pn det result s
                      = Ok (result ++ [(gen s,
                                        mkBlock (injected_cls det) ""
                                          (det_bbox det) [] (pn, pn))], S s)).
      { unfold inject_region, injected_cls. rewrite E.
        unfold is_image_or_table in E. simpl in E.
        destruct det as [id [[X1 Y1] [X2 Y2]] lbl]. simpl in *.
        unfold bind, lift, ret, uuid4, block_cls_map_getitem.
        assert (Hget : dict_get (gen s) result = None)
          by now inversion Hfresh.
        destruct (Z.eqb lbl 6) eqn:E6.
        - apply Z.eqb_eq in E6. subst lbl. simpl.
          now rewrite (dict_set_new _ _ _ Hget).
        - rewrite orb_false_r in E. simpl in E.
          apply Z.eqb_eq in E. subst lbl. simpl.
          now rewrite (dict_set_new _ _ _ Hget). }
      destruct (fresh_after_append gen s _ (gen s)
                  (mkBlock (injected_cls det) "" (det_bbox det) [] (pn, pn))
                  result Hnd Hfresh eq_refl) as [Hnd' Hfresh'].
      rewrite Hstep. rewrite (IH _ (S s) Hnd' Hfresh').
      cbn [seq combine map]. rewrite <- app_assoc. simpl.
      now rewrite Nat.add_succ_r.
    + unfold inject_region. rewrite E. unfold ret. now apply IH.
Qed.

Lemma injection_adds_one_block_per_region_witness :
  for_each (inject_region sample_gen 0)
    [region 7 0 0 100 20 10; region 9 0 50 200 150 6; region 5 0 200 50 250 8]
    [] 0%nat
  = Ok ([(sample_gen 0, mkBlock ImageBlock ""
                          (mkBBOX (mkPoint2D 0 50) (mkPoint2D 200 150)) []
                          (0, 0)%nat);
         (sample_gen 1, mkBlock TableBlock ""
                          (mkBBOX (mkPoint2D 0 200) (mkPoint2D 50 250)) []
                          (0, 0)%nat)], 2%nat).
Proof.
  refine (injection_adds_one_block_per_region sample_gen 0%nat
            [region 7 0 0 100 20 10; region 9 0 50 200 150 6;
             region 5 0 200 50 250 8] [] 0%nat _ _).
  - repeat constructor; simpl; intuition discriminate.
  - repeat constructor.
Defined.

(** ** Several lines of one region *)

Lemma string_app_assoc (a b c : string) :
  ((a ++ b) ++ c = a ++ (b ++ c))%string.
Proof.
  induction a as [|ch a IH]; simpl; [reflexivity | now rewrite IH].
Qed.

Lemma concat_newline_snoc (t : string) (ts : list string) (t' : string) :
  String.concat newline ((t :: ts) ++ [t'])
  = (String.concat newline (t :: ts) ++ newline ++ t')%string.
Proof.
  revert t. induction ts as [|u ts IH]; intro t; [reflexivity|].
  change (String.concat newline ((t :: u :: ts) ++ [t']))
    with (t ++ newline ++ String.concat newline ((u :: ts) ++ [t']))%string.
  rewrite IH.
  change (String.concat newline (t :: u :: ts))
    with (t ++ newline ++ String.concat newline (u :: ts))%string.
  now rewrite !string_app_assoc.
Qed.

Lemma dict_set_set k b b' d :
  dict_set k b' (dict_set k b d) = dict_set k b' d.
Proof.
  induction d as [|[k0 b0] d IH]; simpl.
  - now rewrite N.eqb_refl.
  - destruct (N.eqb k k0) eqn:E; simpl; rewrite E; [reflexivity|].
    now rewrite IH.
Qed.

Lemma dict_set_get_same k b d :
  dict_get k d = Some b -> dict_set k b d = d.
Proof.
  induction d as [|[k0 b0] d IH]; simpl; [discriminate|].
  destruct (N.eqb k k0) eqn:E.
  - intros [= ->]. reflexivity.
  - intro H. now rewrite IH.
Qed.

Lemma union_box_equiv (a : BBOX) (u c : Q * Q * Q * Q) :
  bbox_equiv a (box_of u) ->
  bbox_equiv (box_of (union_box (to_numpy a) c)) (box_of (union_box u c)).
Proof.
  destruct a as [[a0 a1] [a2 a3]]. destruct u as [[[u0 u1] u2] u3].
  destruct c as [[[c0 c1] c2] c3]. unfold bbox_equiv. simpl.
  intros (H0 & H1 & H2 & H3). rewrite H0, H1, H2, H3.
  repeat split; reflexivity.
Qed.

(** Lines that are all matched to the identifier [id], merged into the
    block the map already holds under it. *)
Lemma merge_lines_into_block gen pn layout id cls :
  forall lines boxes result s b0 ts u,
    Forall2 (fun line c =>
               line_box line = Ok c
               /\ forall s0, _get_block_cls gen c layout default_threshold s0
                             = Ok ((id, cls), s0))
            lines boxes ->
    dict_get id result = Some b0 ->
    text b0 = String.concat newline ts -> ts <> [] ->
    bbox_equiv (bbox b0) (box_of u) ->
    exists b,
      for_each (process_line gen pn layout) lines result s
      = Ok (dict_set id b result, s)
      /\ block_cls b = block_cls b0
      /\ text b = String.concat newline (ts ++ map doctr.render lines)
      /\ bbox_equiv (bbox b) (box_of (fold_left union_box boxes u))
      /\ page_range b = page_range b0
      /\ metadata b = metadata b0.
Proof.
  intros lines boxes result s b0 ts u H. revert result s b0 ts u.
  induction H as [|line c lines boxes [Hbox Hmatch] _ IH];
    intros result s b0 ts u Hget Htext Hts Hbb.
  - exists b0. simpl. unfold ret. rewrite app_nil_r.
    rewrite (dict_set_get_same id b0 result Hget). auto 6.
  - destruct (accumulate_present id cls (doctr.render line) c pn result b0 Hget)
      as (b1 & Hacc & Hc1 & Ht1 & Hb1 & Hm1 & Hp1).
    destruct (IH (dict_set id b1 result) s b1
                 (ts ++ [doctr.render line]) (union_box u c))
      as (b & Hrun & Hc & Ht & Hb & Hp & Hm).
    + apply dict_get_set_same.
    + rewrite Ht1, Htext. destruct ts as [|t ts]; [contradiction|].
      symmetry. apply concat_newline_snoc.
    + destruct ts; discriminate.
    + apply (bbox_equiv_trans _ _ _ Hb1). now apply union_box_equiv.
    + exists b. cbn [for_each]. unfold bind at 1.
      unfold process_line at 1, bind, lift, ret. rewrite Hbox, Hmatch, Hacc.
      rewrite Hrun, dict_set_set.
      split; [reflexivity|]. split; [congruence|].
      split; [now rewrite Ht, <- app_assoc|].
      split; [exact Hb|]. split; congruence.
Qed.

(** Property X10.  Lines that are all matched to one identifier, new to the
    page map, with a text class, without any identifier being generated:
    after the loop over the lines the map holds one more block, of that
    class, whose text is the rendered lines joined by newlines in the order
    of the lines and whose bbox is the union of all the line boxes; the
    blocks held before are untouched. *)
Theorem lines_of_one_region_make_one_block gen pn layout id cls
    line lines c boxes result s :
  issubclass_TextBlock cls = true ->
  dict_get id result = None ->
  Forall2 (fun l b =>
             line_box l = Ok b
             /\ forall s0, _get_block_cls gen b layout default_threshold s0
                           = Ok ((id, cls), s0))
          (line :: lines) (c :: boxes) ->
  exists b,
    for_each (process_line gen pn layout) (line :: lines) result s
    = Ok (result ++ [(id, b)], s)
    /\ block_cls b = cls
    /\ text b = String.concat newline (map doctr.render (line :: lines))
    /\ bbox_equiv (bbox b) (box_of (fold_left union_box boxes c))
    /\ page_range b = (pn, pn)
    /\ metadata b = [].
Proof.
  intros Hcls Hget H.
  inversion H as [|? ? ? ? [Hbox Hmatch] Hrest]; subst.
  set (b1 := mkBlock cls (doctr.render line) (box_of c) [] (pn, pn)).
  destruct (merge_lines_into_block gen pn layout id cls lines boxes
              (dict_set id b1 result) s b1 [doctr.render line] c Hrest)
    as (b & Hrun & Hc & Ht & Hb & Hp & Hm).
  - apply dict_get_set_same.
  - reflexivity.
  - discriminate.
  - destruct c as [[[x0 y0] x1] y1]. repeat split; reflexivity.
  - exists b. cbn [for_each]. unfold bind at 1.
    unfold process_line at 1, bind, lift, ret. rewrite Hbox, Hmatch.
    rewrite (accumulate_new id cls _ c pn result Hget Hcls).
    fold b1. rewrite <- (dict_set_new id b1 result Hget).
    rewrite Hrun, dict_set_set, (dict_set_new id b result Hget).
    split; [reflexivity|]. split; [exact Hc|]. split; [exact Ht|].
    split; [exact Hb|]. split; [exact Hp | exact Hm].
Qed.

Lemma lines_of_one_region_make_one_block_witness :
  exists b,
    for_each (process_line sample_gen 0 [region 7 0 0 100 20 10])
      [doctr.mkLine [word "Hello" 5 2 95 10];
       doctr.mkLine [word "World" 5 11 95 19]] [] 0%nat
    = Ok ([] ++ [(7%N, b)], 0%nat)
    /\ block_cls b = TitleBlock
    /\ text b = ("Hello" ++ newline ++ "World")%string.
Proof.
  destruct (lines_of_one_region_make_one_block sample_gen 0%nat
              [region 7 0 0 100 20 10] 7%N TitleBlock
              (doctr.mkLine [word "Hello" 5 2 95 10])
              [doctr.mkLine [word "World" 5 11 95 19]]
              (5, 2, 95, 10) [(5, 11, 95, 19)] [] 0%nat eq_refl eq_refl)
    as (b & Hrun & Hc & Ht & _).
  - constructor; [split; [reflexivity | intro; reflexivity]|].
    constructor; [split; [reflexivity | intro; reflexivity]|]. constructor.
  - exists b. split; [exact Hrun | split; [exact Hc | exact Ht]].
Defined.

(** ** Provider selection *)

Lemma not_in_false name prov : not_in name prov = false -> In name prov.
Proof.
  unfold not_in. rewrite negb_false_iff, existsb_exists.
  intros (p & Hin & Heq). apply String.eqb_eq in Heq. now subst.
Qed.

Lemma not_in_true name prov : not_in name prov = true -> ~ In name prov.
Proof.
  unfold not_in. rewrite negb_true_iff. intros H Hin.
  assert (E : existsb (String.eqb name) prov = true).
  { apply existsb_exists. exists name. split; [exact Hin|].
    apply String.eqb_refl. }
  congruence.
Qed.

(** Property X11.  [_get_providers] raises exactly when the device is CUDA
    or COREML and the provider of that device is not among the available
    ones, and then with a [ValueError].  When it returns, the list is not
    empty, every provider in it other than "TensorrtExecutionProvider" and
    "CPUExecutionProvider" is available (these two are returned without
    being looked up), and a warning is issued exactly for a device that is
    none of CPU, CUDA and COREML, which gets the CPU provider. *)
Theorem get_providers_outcome device prov :
  match _get_providers device prov with
  | Raise e =>
      exists msg,
        e = ValueError msg
        /\ ((device = CUDA /\ ~ In "CUDAExecutionProvider"%string prov)
            \/ (device = COREML /\ ~ In "CoreMLExecutionProvider"%string prov))
  | Ok (providers, warnings) =>
      providers <> []
      /\ (device = CUDA -> In "CUDAExecutionProvider"%string prov)
      /\ (device = COREML -> In "CoreMLExecutionProvider"%string prov)
      /\ (forall p, In p providers ->
                    In p prov
                    \/ p = "TensorrtExecutionProvider"%string
                    \/ p = "CPUExecutionProvider"%string)
      /\ (warnings <> [] <-> device = OtherDevice)
      /\ (device = OtherDevice \/ device = CPU ->
          providers = ["CPUExecutionProvider"]%string)
  end.
Proof.
  destruct device; simpl.
  - repeat split; try discriminate; try congruence; auto.
    intros p [<- | []]. auto.
  - destruct (not_in "CUDAExecutionProvider" prov) eqn:E.
    + eexists. split; [reflexivity|]. left. split; [reflexivity|].
      now apply not_in_true.
    + apply not_in_false in E.
      repeat split; try discriminate; try congruence; auto.
      * intros p [<- | [<- | []]]; auto.
      * intros [H | H]; discriminate.
  - destruct (not_in "CoreMLExecutionProvider" prov) eqn:E.
    + eexists. split; [reflexivity|]. right. split; [reflexivity|].
      now apply not_in_true.
    + apply not_in_false in E.
      repeat split; try discriminate; try congruence; auto.
      * intros p [<- | []]; auto.
      * intros [H | H]; discriminate.
  - repeat split; try discriminate; try congruence; auto.
    intros p [<- | []]. auto.
Qed.

(** ** The inputs of the recognition *)

Section RecognitionFacts.

Context {Image Raster Array Scores Orientation Shape TextDetection : Type}.
Variable np_array : Image -> Raster.
Variable get_loc_preds : TextDetection -> Array.
Variable get_objectness_scores : TextDetection -> Scores.
Variable get_orientations : TextDetection -> Orientation.
Variable get_origin_page_shapes : TextDetection -> Shape.
Variable rows : Array -> nat.
Variable zeros_0_4 : Array.

Local Notation collect :=
  (collect_pages Image Raster Array Scores Orientation Shape TextDetection
     np_array get_loc_preds get_objectness_scores get_orientations
     get_origin_page_shapes rows zeros_0_4).

Local Notation inputs :=
  (recognition_inputs Image Raster Array Scores Orientation Shape
     TextDetection np_array get_loc_preds get_objectness_scores
     get_orientations get_origin_page_shapes rows zeros_0_4).

Local Notation loc_pred_of :=
  (loc_pred_of Array TextDetection get_loc_preds rows zeros_0_4).

Lemma collect_pages_outcome (pages : list (Page Image TextDetection)) :
  forall rs ls ss os hs,
    match collect pages (rs, ls, ss, os, hs) with
    | Collected (rs', ls', ss', os', hs') =>
        exists tds,
          map text_detections pages = map Some tds
          /\ rs' = rs ++ map (fun p => np_array (rasterized p)) pages
          /\ ls' = ls ++ map loc_pred_of tds
          /\ ss' = ss ++ map get_objectness_scores tds
          /\ os' = os ++ map get_orientations tds
          /\ hs' = hs ++ map get_origin_page_shapes tds
    | AssertionFailed _ => False
    | AttributeErrorOnNone attribute =>
        attribute = "get_loc_preds"%string
        /\ Exists (fun p => text_detections p = None) pages
    end.
Proof.
  induction pages as [|page pages IH]; intros rs ls ss os hs; simpl.
  - exists []. rewrite !app_nil_r. auto 6.
  - destruct (text_detections page) as [td|] eqn:E.
    + specialize (IH (rs ++ [np_array (rasterized page)])
                     (ls ++ [if Nat.eqb (rows (get_loc_preds td)) 0
                             then zeros_0_4 else get_loc_preds td])
                     (ss ++ [get_objectness_scores td])
                     (os ++ [get_orientations td])
                     (hs ++ [get_origin_page_shapes td])).
      destruct (collect pages _) as [[[[[rs' ls'] ss'] os'] hs']|msg|attr].
      * destruct IH as (tds & Hm & -> & -> & -> & -> & ->).
        exists (td :: tds). simpl. rewrite Hm, <- !app_assoc. auto 6.
      * exact IH.
      * destruct IH as [-> Hex]. split; [reflexivity | now right].
    + split; [reflexivity | now left].
Qed.

(** Property X12.  The first part of [get_text_recognition].  Its
    assertion fails exactly when no page has text detections, so also for
    an empty list of pages.  When some page has detections and some page
    has none, the assertion passes and the loop raises the [AttributeError]
    of calling [get_loc_preds] on [None].  It reaches the recognition only
    when there is at least one page and every page has detections, and then
    the five lists have one entry per page, in the order of the pages, the
    boxes of a page without rows being replaced by the empty array of four
    columns. *)
Theorem recognition_inputs_outcome (pages : list (Page Image TextDetection)) :
  match inputs pages with
  | AssertionFailed msg =>
      msg = "Text detections should be computed before running text recognition"%string
      /\ Forall (fun p => text_detections p = None) pages
  | AttributeErrorOnNone attribute =>
      attribute = "get_loc_preds"%string
      /\ Exists (fun p => text_detections p <> None) pages
      /\ Exists (fun p => text_detections p = None) pages
  | Collected (rasterized_pages, loc_preds, objectness_scores, orientations,
               origin_page_shapes) =>
      pages <> []
      /\ exists tds,
           map text_detections pages = map Some tds
           /\ rasterized_pages = map (fun p => np_array (rasterized p)) pages
           /\ loc_preds = map loc_pred_of tds
           /\ objectness_scores = map get_objectness_scores tds
           /\ orientations = map get_orientations tds
           /\ origin_page_shapes = map get_origin_page_shapes tds
  end.
Proof.
  unfold recognition_inputs.
  destruct (existsb _ pages) eqn:E.
  - assert (Hex : Exists (fun p => text_detections p <> None) pages).
    { apply existsb_exists in E. destruct E as (p & Hin & Hp).
      apply Exists_exists. exists p. split; [exact Hin|].
      destruct (text_detections p); [discriminate | discriminate]. }
    pose proof (collect_pages_outcome pages [] [] [] [] []) as H.
    destruct (collect pages _) as [[[[[rs' ls'] ss'] os'] hs']|msg|attr].
    + split; [now apply (Exists_nonempty _ _ Hex)|]. exact H.
    + contradiction.
    + destruct H as [-> Hnone]. auto.
  - split; [reflexivity|]. apply Forall_forall. intros p Hin.
    destruct (text_detections p) eqn:Ep; [|reflexivity].
    assert (existsb (fun page => match text_detections page with
                                 | Some _ => true
                                 | None => false
                                 end) pages = true).
    { apply existsb_exists. exists p. split; [exact Hin|]. now rewrite Ep. }
    congruence.
Qed.

End RecognitionFacts.

(** ** Errors of the matcher *)



